(** * Xilinx DMA bridge driver: probe / remove lifecycle

    A shallow embedding of [driver/xilinx_dma_bridge_main.c]: the platform
    driver entry points [xilinx_dma_bridge_probe] and
    [xilinx_dma_bridge_remove], run in a small state-and-trace monad over a
    model of the kernel objects they touch (the slab heap holding
    [struct axidma_device] blocks and the per-device [drvdata] slot).

    The subsystems called by the two entry points (the DMA layer and the
    character device layer) and the slab allocator are external to the
    file; they are taken as arbitrary functions on the heap, so the theorems
    hold for all behaviours of these collaborators.  The one statement about
    the contents of the handle after the subsystems have run names the frame
    conditions it needs. *)

From Stdlib Require Import ZArith List String Lia.
From stdpp Require Import gmap strings.
Import ListNotations.

Local Open Scope Z_scope.

(** ** Kernel data *)

(** Kernel addresses; [NULL] is address 0. *)
Abbreviation addr := Z (only parsing).

Definition NULL : addr := 0.

(** errno values of the kernel ([include/uapi/asm-generic/errno*.h]). *)
Definition ENOMEM : Z := 12.
Definition ENOSYS : Z := 38.

(** Modelled from the spec: [struct axidma_device] is declared in
    [axidma.h], which is not part of the sources at hand.  The fields
    [pdev], [chrdev_name], [minor_num] and [num_devices] are the ones the
    probe function assigns; [dma_state] and [chrdev_state] stand for the rest
    of the structure, the state owned by the DMA subsystem and by the
    character device subsystem (section 3 of the specification). *)
Record axidma_device := mk_axidma_device {
  pdev : addr;
  chrdev_name : string;
  minor_num : Z;
  num_devices : Z;
  dma_state : Z;
  chrdev_state : Z
}.

(** An assignment [axidma_dev-><field> = <value>] made by the driver. *)
Inductive field_write :=
| WPdev (v : addr)
| WChrdevName (v : string)
| WMinorNum (v : Z)
| WNumDevices (v : Z).

Definition write_field (w : field_write) (d : axidma_device) : axidma_device :=
  match w with
  | WPdev v =>
      mk_axidma_device v (chrdev_name d) (minor_num d) (num_devices d)
                       (dma_state d) (chrdev_state d)
  | WChrdevName v =>
      mk_axidma_device (pdev d) v (minor_num d) (num_devices d)
                       (dma_state d) (chrdev_state d)
  | WMinorNum v =>
      mk_axidma_device (pdev d) (chrdev_name d) v (num_devices d)
                       (dma_state d) (chrdev_state d)
  | WNumDevices v =>
      mk_axidma_device (pdev d) (chrdev_name d) (minor_num d) v
                       (dma_state d) (chrdev_state d)
  end.

(** The part of the kernel state the two entry points act on: the live
    [struct axidma_device] blocks, and the driver-data pointer of each
    platform device (absent means [NULL]). *)
Record kernel := mk_kernel {
  k_heap : gmap Z axidma_device;
  k_drvdata : gmap Z Z
}.

(** What the driver does, in program order: every call it makes and every
    field it assigns. *)
Inductive event :=
| EvKmalloc (ret : addr)
| EvErr (msg : string)
| EvStore (dev : addr) (w : field_write)
| EvDmaInit (pd dev : addr) (rc : Z)
| EvChrdevInit (dev : addr) (rc : Z)
| EvDmaExit (dev : addr)
| EvChrdevExit (dev : addr)
| EvKfree (dev : addr)
| EvSetDrvdata (pd dev : addr)
| EvGetDrvdata (pd ret : addr).

(** ** The collaborators

    [ext_kmalloc] answers the allocation request with the address of the new
    block ([NULL] when memory is exhausted) and the indeterminate contents
    the block starts with.  The subsystem entry points receive the pointers
    the driver passes them and act on the heap; the two [init] functions
    also return their [int] status. *)
Record externs := mk_externs {
  ext_kmalloc : gmap Z axidma_device -> addr * axidma_device;
  ext_dma_init : addr -> addr -> gmap Z axidma_device -> Z * gmap Z axidma_device;
  ext_chrdev_init : addr -> gmap Z axidma_device -> Z * gmap Z axidma_device;
  ext_dma_exit : addr -> gmap Z axidma_device -> gmap Z axidma_device;
  ext_chrdev_exit : addr -> gmap Z axidma_device -> gmap Z axidma_device
}.

(** ** The monad: kernel state in, result, kernel state and trace out *)

Definition M (A : Type) : Type := kernel -> A * kernel * list event.

Definition ret {A} (a : A) : M A := fun k => (a, k, []).

Definition bind {A B} (m : M A) (f : A -> M B) : M B :=
  fun k =>
    let '(a, k1, t1) := m k in
    let '(b, k2, t2) := f a k1 in
    (b, k2, t1 ++ t2).

Declare Scope drv_scope.
Delimit Scope drv_scope with drv.
Bind Scope drv_scope with M.

Notation "'let*' x ':=' m 'in' f" := (bind m (fun x => f))
  (at level 10, x name, m at level 100, f at level 200) : drv_scope.
Notation "m ';;' f" := (bind m (fun _ => f))
  (at level 100, f at level 200, right associativity) : drv_scope.

Definition result {A} (r : A * kernel * list event) : A := fst (fst r).
Definition final {A} (r : A * kernel * list event) : kernel := snd (fst r).
Definition trace {A} (r : A * kernel * list event) : list event := snd r.

Definition emit (e : event) : M unit := fun k => (tt, k, [e]).

Definition set_heap (h : gmap Z axidma_device) (k : kernel) : kernel :=
  mk_kernel h (k_drvdata k).


(** ** Reading a trace *)

(** The three things the probe function acquires, each identified by the
    handle it belongs to: the handle's storage, subsystem A (DMA) and
    subsystem B (character device). *)
Inductive resource :=
| RHandle (dev : addr)
| RDma (dev : addr)
| RChrdev (dev : addr).

(** An acquire step that succeeded. *)
Definition acquired (e : event) : option resource :=
  match e with
  | EvKmalloc p => if p =? NULL then None else Some (RHandle p)
  | EvDmaInit _ p rc => if rc <? 0 then None else Some (RDma p)
  | EvChrdevInit p rc => if rc <? 0 then None else Some (RChrdev p)
  | _ => None
  end.

(** A release call. *)
Definition released (e : event) : option resource :=
  match e with
  | EvKfree p => Some (RHandle p)
  | EvDmaExit p => Some (RDma p)
  | EvChrdevExit p => Some (RChrdev p)
  | _ => None
  end.

Definition acquires (t : list event) : list resource := omap acquired t.
Definition releases (t : list event) : list resource := omap released t.

(** Calls, as opposed to field assignments and log messages. *)
Definition is_call (e : event) : bool :=
  match e with
  | EvStore _ _ | EvErr _ => false
  | _ => true
  end.

Definition is_acquire_call (e : event) : bool :=
  match e with
  | EvDmaInit _ _ _ | EvChrdevInit _ _ => true
  | _ => false
  end.

Definition is_release_call (e : event) : bool :=
  match e with
  | EvKfree _ | EvDmaExit _ | EvChrdevExit _ => true
  | _ => false
  end.

Definition is_set_drvdata (e : event) : bool :=
  match e with
  | EvSetDrvdata _ _ => true
  | _ => false
  end.

(** Assignments to the configuration fields of a handle. *)
Definition is_config_store (e : event) : bool :=
  match e with
  | EvStore _ (WChrdevName _) | EvStore _ (WMinorNum _)
  | EvStore _ (WNumDevices _) => true
  | _ => false
  end.

(** The calls that free the block at [p]. *)
Definition is_kfree_of (p : addr) (e : event) : bool :=
  match e with
  | EvKfree q => q =? p
  | _ => false
  end.

Definition frees_of (p : addr) (t : list event) : list event :=
  List.filter (is_kfree_of p) t.

Definition calls (t : list event) : list event := List.filter is_call t.
Definition acquire_calls (t : list event) : list event := List.filter is_acquire_call t.
Definition release_calls (t : list event) : list event := List.filter is_release_call t.
Definition drvdata_writes (t : list event) : list event := List.filter is_set_drvdata t.
Definition config_stores (t : list event) : list event := List.filter is_config_store t.

(** The configuration carried by a handle. *)
Definition config_of (d : axidma_device) : string * Z * Z :=
  (chrdev_name d, minor_num d, num_devices d).

Section Driver.

Local Open Scope drv_scope.

Variable E : externs.

(** Module parameters ([module_param]) and the device count macro.
    [NUM_DEVICES] comes from [axidma.h]. *)
Variable CHARACTER_DEVICE_NAME : string.
Variable MINOR_NUMBER : Z.
Variable NUM_DEVICES : Z.

(** ** Kernel and subsystem calls *)

(** [kmalloc] of one [struct axidma_device], with [GFP_KERNEL]. *)
Definition kmalloc : M addr := fun k =>
  let '(p, junk) := ext_kmalloc E (k_heap k) in
  if p =? NULL then (NULL, k, [EvKmalloc NULL])
  else (p, set_heap (<[p := junk]> (k_heap k)) k, [EvKmalloc p]).

(** [kfree(p)]; freeing [NULL] does nothing. *)
Definition kfree (p : addr) : M unit := fun k =>
  (tt, (if p =? NULL then k else set_heap (delete p (k_heap k)) k), [EvKfree p]).

Definition axidma_err (msg : string) : M unit := emit (EvErr msg).

(** [axidma_dev->f = v] *)
Definition store (p : addr) (w : field_write) : M unit := fun k =>
  (tt, set_heap (alter (write_field w) p (k_heap k)) k, [EvStore p w]).

Definition axidma_dma_init (pd p : addr) : M Z := fun k =>
  let '(rc, h) := ext_dma_init E pd p (k_heap k) in
  (rc, set_heap h k, [EvDmaInit pd p rc]).

Definition axidma_chrdev_init (p : addr) : M Z := fun k =>
  let '(rc, h) := ext_chrdev_init E p (k_heap k) in
  (rc, set_heap h k, [EvChrdevInit p rc]).

Definition axidma_dma_exit (p : addr) : M unit := fun k =>
  (tt, set_heap (ext_dma_exit E p (k_heap k)) k, [EvDmaExit p]).

Definition axidma_chrdev_exit (p : addr) : M unit := fun k =>
  (tt, set_heap (ext_chrdev_exit E p (k_heap k)) k, [EvChrdevExit p]).

(** [dev_set_drvdata(&pdev->dev, data)] *)
Definition dev_set_drvdata (pd data : addr) : M unit := fun k =>
  (tt, mk_kernel (k_heap k) (<[pd := data]> (k_drvdata k)), [EvSetDrvdata pd data]).

(** [dev_get_drvdata(&pdev->dev)] *)
Definition dev_get_drvdata (pd : addr) : M addr := fun k =>
  let p := default NULL (k_drvdata k !! pd) in
  (p, k, [EvGetDrvdata pd p]).

(** ** The platform device functions *)

Definition alloc_failed_msg : string :=
  "Unable to allocate the AXI DMA device structure." ++ String (Ascii.ascii_of_nat 10) EmptyString.

(** The cleanup labels of [xilinx_dma_bridge_probe]; [destroy_dma_dev]
    falls through into [free_axidma_dev]. *)
Definition free_axidma_dev (axidma_dev : addr) : M Z :=
  kfree axidma_dev ;;
  ret (- ENOSYS).

Definition destroy_dma_dev (axidma_dev : addr) : M Z :=
  axidma_dma_exit axidma_dev ;;
  free_axidma_dev axidma_dev.

Definition xilinx_dma_bridge_probe (pd : addr) : M Z :=
  let* axidma_dev := kmalloc in
  if axidma_dev =? NULL then
    axidma_err alloc_failed_msg ;;
    ret (- ENOMEM)
  else
    store axidma_dev (WPdev pd) ;;
    let* rc := axidma_dma_init pd axidma_dev in
    if rc <? 0 then free_axidma_dev axidma_dev
    else
      store axidma_dev (WChrdevName CHARACTER_DEVICE_NAME) ;;
      store axidma_dev (WMinorNum MINOR_NUMBER) ;;
      store axidma_dev (WNumDevices NUM_DEVICES) ;;
      let* rc := axidma_chrdev_init axidma_dev in
      if rc <? 0 then destroy_dma_dev axidma_dev
      else
        dev_set_drvdata pd axidma_dev ;;
        ret 0.

Definition xilinx_dma_bridge_remove (pd : addr) : M Z :=
  let* axidma_dev := dev_get_drvdata pd in
  axidma_chrdev_exit axidma_dev ;;
  axidma_dma_exit axidma_dev ;;
  kfree axidma_dev ;;
  ret 0.

(** ** The runs of the probe function

    One constructor per path through [xilinx_dma_bridge_probe], with the
    answers of the collaborators that select it, the value returned, the
    kernel state left behind and the trace. *)
Inductive probe_run (pd : addr) (k : kernel) : Z * kernel * list event -> Prop :=
| ProbeNoMem junk :
    ext_kmalloc E (k_heap k) = (NULL, junk) ->
    probe_run pd k
      (- ENOMEM, k, [EvKmalloc NULL; EvErr alloc_failed_msg])
| ProbeDmaFailed p junk rc h1 :
    ext_kmalloc E (k_heap k) = (p, junk) ->
    p <> NULL ->
    ext_dma_init E pd p
      (alter (write_field (WPdev pd)) p (<[p := junk]> (k_heap k))) = (rc, h1) ->
    rc < 0 ->
    probe_run pd k
      (- ENOSYS, set_heap (delete p h1) k,
       [EvKmalloc p; EvStore p (WPdev pd); EvDmaInit pd p rc; EvKfree p])
| ProbeChrdevFailed p junk rcA h1 rcB h2 :
    ext_kmalloc E (k_heap k) = (p, junk) ->
    p <> NULL ->
    ext_dma_init E pd p
      (alter (write_field (WPdev pd)) p (<[p := junk]> (k_heap k))) = (rcA, h1) ->
    0 <= rcA ->
    ext_chrdev_init E p
      (alter (write_field (WNumDevices NUM_DEVICES)) p
         (alter (write_field (WMinorNum MINOR_NUMBER)) p
            (alter (write_field (WChrdevName CHARACTER_DEVICE_NAME)) p h1)))
      = (rcB, h2) ->
    rcB < 0 ->
    probe_run pd k
      (- ENOSYS, set_heap (delete p (ext_dma_exit E p h2)) k,
       [EvKmalloc p; EvStore p (WPdev pd); EvDmaInit pd p rcA;
        EvStore p (WChrdevName CHARACTER_DEVICE_NAME);
        EvStore p (WMinorNum MINOR_NUMBER);
        EvStore p (WNumDevices NUM_DEVICES);
        EvChrdevInit p rcB; EvDmaExit p; EvKfree p])
| ProbeAttached p junk rcA h1 rcB h2 :
    ext_kmalloc E (k_heap k) = (p, junk) ->
    p <> NULL ->
    ext_dma_init E pd p
      (alter (write_field (WPdev pd)) p (<[p := junk]> (k_heap k))) = (rcA, h1) ->
    0 <= rcA ->
    ext_chrdev_init E p
      (alter (write_field (WNumDevices NUM_DEVICES)) p
         (alter (write_field (WMinorNum MINOR_NUMBER)) p
            (alter (write_field (WChrdevName CHARACTER_DEVICE_NAME)) p h1)))
      = (rcB, h2) ->
    0 <= rcB ->
    probe_run pd k
      (0, mk_kernel h2 (<[pd := p]> (k_drvdata k)),
       [EvKmalloc p; EvStore p (WPdev pd); EvDmaInit pd p rcA;
        EvStore p (WChrdevName CHARACTER_DEVICE_NAME);
        EvStore p (WMinorNum MINOR_NUMBER);
        EvStore p (WNumDevices NUM_DEVICES);
        EvChrdevInit p rcB; EvSetDrvdata pd p]).

End Driver.

Arguments probe_run E CHARACTER_DEVICE_NAME MINOR_NUMBER NUM_DEVICES pd k _ : clear implicits.

(** ** Frame conditions on the collaborators *)

(** The DMA subsystem's [init] does not free the handle it is given. *)
Definition dma_init_keeps_handle (E : externs) : Prop :=
  forall (pd p : addr) (h : gmap Z axidma_device),
    is_Some (h !! p) -> is_Some ((ext_dma_init E pd p h).2 !! p).

(** The character device subsystem's [init] neither frees the handle it is
    given nor changes its configuration fields. *)
Definition chrdev_init_keeps_config (E : externs) : Prop :=
  forall (p : addr) (h : gmap Z axidma_device) (d : axidma_device),
    h !! p = Some d ->
    exists d', (ext_chrdev_init E p h).2 !! p = Some d' /\ config_of d' = config_of d.

(** ** Concrete collaborators and kernel states *)

Definition junk_device : axidma_device :=
  mk_axidma_device 7 "junk" 7 7 7 7.

Definition set_dma_state (v : Z) (d : axidma_device) : axidma_device :=
  mk_axidma_device (pdev d) (chrdev_name d) (minor_num d) (num_devices d)
                   v (chrdev_state d).

Definition set_chrdev_state (v : Z) (d : axidma_device) : axidma_device :=
  mk_axidma_device (pdev d) (chrdev_name d) (minor_num d) (num_devices d)
                   (dma_state d) v.

(** Collaborators that allocate at [p] and whose [init] functions answer
    [rcA] and [rcB]; each subsystem records its own state in the handle. *)
Definition sample_externs (p rcA rcB : Z) : externs :=
  mk_externs
    (fun _ => (p, junk_device))
    (fun _ q h => (rcA, alter (set_dma_state 1) q h))
    (fun q h => (rcB, alter (set_chrdev_state 1) q h))
    (fun q h => alter (set_dma_state 0) q h)
    (fun q h => alter (set_chrdev_state 0) q h).

Definition empty_kernel : kernel := mk_kernel ∅ ∅.

(** The module parameters at their defaults, and one device. *)
Definition XILINX_DMA_BRIDGE_DRIVER_NAME : string := "xilinx_dma_bridge".

Definition sample_probe (p rcA rcB : Z) : M Z :=
  xilinx_dma_bridge_probe (sample_externs p rcA rcB)
    XILINX_DMA_BRIDGE_DRIVER_NAME 0 1 1000.

Definition sample_remove (p rcA rcB : Z) : M Z :=
  xilinx_dma_bridge_remove (sample_externs p rcA rcB) 1000.

(** ** Locality of the collaborators

    Conditions under which the driver's effect on the heap can be told
    apart from that of the subsystems: each subsystem function changes at
    most the block whose address it is given. *)
Definition init_local (E : externs) : Prop :=
  (forall (pd p q : addr) (h : gmap Z axidma_device),
     q <> p -> (ext_dma_init E pd p h).2 !! q = h !! q) /\
  (forall (p q : addr) (h : gmap Z axidma_device),
     q <> p -> (ext_chrdev_init E p h).2 !! q = h !! q).

Definition exit_local (E : externs) : Prop :=
  (forall (p q : addr) (h : gmap Z axidma_device),
     q <> p -> ext_dma_exit E p h !! q = h !! q) /\
  (forall (p q : addr) (h : gmap Z axidma_device),
     q <> p -> ext_chrdev_exit E p h !! q = h !! q).

(** Neither [init] function frees the handle it is given or overwrites its
    [pdev] field. *)
Definition init_keeps_pdev (E : externs) : Prop :=
  (forall (pd p : addr) (h : gmap Z axidma_device) (d : axidma_device),
     h !! p = Some d ->
     exists d', (ext_dma_init E pd p h).2 !! p = Some d' /\ pdev d' = pdev d) /\
  (forall (p : addr) (h : gmap Z axidma_device) (d : axidma_device),
     h !! p = Some d ->
     exists d', (ext_chrdev_init E p h).2 !! p = Some d' /\ pdev d' = pdev d).

(** The kernel state of the sample device once it is attached, with its
    handle at 4096. *)
Definition attached_kernel : kernel :=
  final (sample_probe 4096 0 0 empty_kernel).

(** A second device (at address 2000) attached as well, with its handle at
    8192. *)
Definition two_devices_kernel : kernel :=
  final (xilinx_dma_bridge_probe (sample_externs 8192 0 0)
           XILINX_DMA_BRIDGE_DRIVER_NAME 0 1 2000 attached_kernel).

(** ** The heaps the subsystems are called on

    [axidma_dma_init] is called once the new block is in place and its
    [pdev] field assigned; [axidma_chrdev_init] is called on the heap
    subsystem A left, after the three configuration fields of the handle
    have been assigned. *)
Definition heap_for_dma_init (pd p : addr) (junk : axidma_device)
    (h : gmap Z axidma_device) : gmap Z axidma_device :=
  alter (write_field (WPdev pd)) p (<[p := junk]> h).

Definition heap_for_chrdev_init (name : string) (minor n : Z) (p : addr)
    (h1 : gmap Z axidma_device) : gmap Z axidma_device :=
  alter (write_field (WNumDevices n)) p
    (alter (write_field (WMinorNum minor)) p
       (alter (write_field (WChrdevName name)) p h1)).

(** * Properties *)

Section Properties.

Variable E : externs.
Variable CHARACTER_DEVICE_NAME : string.
Variable MINOR_NUMBER : Z.
Variable NUM_DEVICES : Z.

Local Abbreviation probe :=
  (xilinx_dma_bridge_probe E CHARACTER_DEVICE_NAME MINOR_NUMBER NUM_DEVICES).
Local Abbreviation remove := (xilinx_dma_bridge_remove E).
Local Abbreviation run := (probe_run E CHARACTER_DEVICE_NAME MINOR_NUMBER NUM_DEVICES).

(** ** The probe function follows exactly one of its four paths *)

Ltac step_probe :=
  cbv beta iota zeta delta
    [xilinx_dma_bridge_probe free_axidma_dev destroy_dma_dev bind kmalloc
     kfree store axidma_err emit axidma_dma_init axidma_chrdev_init
     axidma_dma_exit dev_set_drvdata ret set_heap];
  cbn [k_heap k_drvdata app].

Lemma probe_runs (pd : Z) (k : kernel) : run pd k (probe pd k).
Proof.
  destruct (ext_kmalloc E (k_heap k)) as [p junk] eqn:Halloc.
  destruct (Z.eqb_spec p NULL) as [-> | Hp].
  { replace (probe pd k)
      with (- ENOMEM, k, [EvKmalloc NULL; EvErr alloc_failed_msg]).
    - eapply ProbeNoMem; eassumption.
    - repeat (step_probe; rewrite ?Halloc). reflexivity. }
  apply Z.eqb_neq in Hp as Hpb.
  destruct (ext_dma_init E pd p
              (alter (write_field (WPdev pd)) p (<[p := junk]> (k_heap k))))
    as [rcA h1] eqn:HA.
  destruct (Z.ltb_spec rcA 0) as [HrcA | HrcA].
  { apply Z.ltb_lt in HrcA as HrcAb.
    replace (probe pd k)
      with (- ENOSYS, set_heap (delete p h1) k,
            [EvKmalloc p; EvStore p (WPdev pd); EvDmaInit pd p rcA; EvKfree p]).
    - eapply ProbeDmaFailed; eassumption.
    - repeat (step_probe; rewrite ?Halloc, ?Hpb, ?HA, ?HrcAb). reflexivity. }
  apply Z.ltb_ge in HrcA as HrcAb.
  destruct (ext_chrdev_init E p
      (alter (write_field (WNumDevices NUM_DEVICES)) p
         (alter (write_field (WMinorNum MINOR_NUMBER)) p
            (alter (write_field (WChrdevName CHARACTER_DEVICE_NAME)) p h1))))
    as [rcB h2] eqn:HB.
  destruct (Z.ltb_spec rcB 0) as [HrcB | HrcB].
  { apply Z.ltb_lt in HrcB as HrcBb.
    replace (probe pd k)
      with (- ENOSYS, set_heap (delete p (ext_dma_exit E p h2)) k,
            [EvKmalloc p; EvStore p (WPdev pd); EvDmaInit pd p rcA;
             EvStore p (WChrdevName CHARACTER_DEVICE_NAME);
             EvStore p (WMinorNum MINOR_NUMBER);
             EvStore p (WNumDevices NUM_DEVICES);
             EvChrdevInit p rcB; EvDmaExit p; EvKfree p]).
    - eapply ProbeChrdevFailed; eassumption.
    - repeat (step_probe; rewrite ?Halloc, ?Hpb, ?HA, ?HrcAb, ?HB, ?HrcBb).
      reflexivity. }
  apply Z.ltb_ge in HrcB as HrcBb.
  replace (probe pd k)
    with (0, mk_kernel h2 (<[pd := p]> (k_drvdata k)),
          [EvKmalloc p; EvStore p (WPdev pd); EvDmaInit pd p rcA;
           EvStore p (WChrdevName CHARACTER_DEVICE_NAME);
           EvStore p (WMinorNum MINOR_NUMBER);
           EvStore p (WNumDevices NUM_DEVICES);
           EvChrdevInit p rcB; EvSetDrvdata pd p]).
  - eapply ProbeAttached; eassumption.
  - repeat (step_probe; rewrite ?Halloc, ?Hpb, ?HA, ?HrcAb, ?HB, ?HrcBb).
    reflexivity.
Qed.

(** The remove function has a single path. *)
Lemma remove_runs (pd : Z) (k : kernel) :
  remove pd k =
    (0,
     (if default NULL (k_drvdata k !! pd) =? NULL
      then set_heap (ext_dma_exit E (default NULL (k_drvdata k !! pd))
                       (ext_chrdev_exit E (default NULL (k_drvdata k !! pd))
                          (k_heap k))) k
      else set_heap (delete (default NULL (k_drvdata k !! pd))
                       (ext_dma_exit E (default NULL (k_drvdata k !! pd))
                          (ext_chrdev_exit E (default NULL (k_drvdata k !! pd))
                             (k_heap k)))) k),
     [EvGetDrvdata pd (default NULL (k_drvdata k !! pd));
      EvChrdevExit (default NULL (k_drvdata k !! pd));
      EvDmaExit (default NULL (k_drvdata k !! pd));
      EvKfree (default NULL (k_drvdata k !! pd))]).
Proof.
  unfold xilinx_dma_bridge_remove, bind, dev_get_drvdata, kfree,
    axidma_chrdev_exit, axidma_dma_exit, ret.
  cbn [k_heap k_drvdata set_heap app].
  destruct (default NULL (k_drvdata k !! pd) =? NULL); reflexivity.
Qed.

Lemma neg_not_nonneg (rc : Z) : rc < 0 -> (rc <? 0) = true.
Proof. intros H. now apply Z.ltb_lt. Qed.

Lemma nonneg_not_neg (rc : Z) : 0 <= rc -> (rc <? 0) = false.
Proof. intros H. now apply Z.ltb_ge. Qed.

Lemma nonnull_eqb (p : Z) : p <> NULL -> (p =? NULL) = false.
Proof. intros H. now apply Z.eqb_neq. Qed.

(** Evaluate the trace observers on the explicit trace of a path. *)
Ltac eval_trace :=
  cbn [result final trace fst snd];
  cbv [acquires releases calls acquire_calls release_calls drvdata_writes
       config_stores];
  cbn [omap list_omap List.filter acquired released is_call is_acquire_call
       is_release_call is_set_drvdata is_config_store rev app];
  repeat match goal with
    | |- context [?x =? NULL] => rewrite (nonnull_eqb x) by assumption
    | |- context [?x <? 0] =>
        first [ rewrite (neg_not_nonneg x) by assumption
              | rewrite (nonneg_not_neg x) by assumption ]
    end;
  cbn [rev app].

(** ** Rollback on a failed probe *)

(** C1.  When [xilinx_dma_bridge_probe] returns an error, the release calls
    it issued are the acquire steps that had succeeded, in reverse order, and
    they have taken effect on the heap.  There are three failure points:
    the allocation fails, nothing is released and the kernel state is
    untouched; subsystem A fails, only the handle storage is freed;
    subsystem B fails, [axidma_dma_exit] runs once on the heap subsystem B
    left, then the handle storage is freed.  In each case the block that was
    allocated is gone from the heap and no [drvdata] slot has changed. *)
Theorem probe_failure_rolls_back (pd : Z) (k : kernel) :
  let r := probe pd k in
  result r <> 0 ->
  releases (trace r) = rev (acquires (trace r)) /\
  k_drvdata (final r) = k_drvdata k /\
  (((exists junk, ext_kmalloc E (k_heap k) = (NULL, junk)) /\
    calls (trace r) = [EvKmalloc NULL] /\
    acquires (trace r) = [] /\ release_calls (trace r) = [] /\
    final r = k)
   \/
   (exists p junk rcA h1, p <> NULL /\ rcA < 0 /\
      ext_kmalloc E (k_heap k) = (p, junk) /\
      ext_dma_init E pd p (heap_for_dma_init pd p junk (k_heap k)) = (rcA, h1) /\
      calls (trace r) = [EvKmalloc p; EvDmaInit pd p rcA; EvKfree p] /\
      acquires (trace r) = [RHandle p] /\
      release_calls (trace r) = [EvKfree p] /\
      k_heap (final r) = delete p h1 /\
      k_heap (final r) !! p = None)
   \/
   (exists p junk rcA h1 rcB h2, p <> NULL /\ 0 <= rcA /\ rcB < 0 /\
      ext_kmalloc E (k_heap k) = (p, junk) /\
      ext_dma_init E pd p (heap_for_dma_init pd p junk (k_heap k)) = (rcA, h1) /\
      ext_chrdev_init E p
        (heap_for_chrdev_init CHARACTER_DEVICE_NAME MINOR_NUMBER NUM_DEVICES p h1)
        = (rcB, h2) /\
      calls (trace r) =
        [EvKmalloc p; EvDmaInit pd p rcA; EvChrdevInit p rcB;
         EvDmaExit p; EvKfree p] /\
      acquires (trace r) = [RHandle p; RDma p] /\
      release_calls (trace r) = [EvDmaExit p; EvKfree p] /\
      k_heap (final r) = delete p (ext_dma_exit E p h2) /\
      k_heap (final r) !! p = None)).
Proof.
  intros r Hfail. subst r.
  destruct (probe_runs pd k) as [junk Hk | p junk rc h1 Hk Hp HA Hrc
    | p junk rcA h1 rcB h2 Hk Hp HA HrcA HB HrcB
    | p junk rcA h1 rcB h2 Hk Hp HA HrcA HB HrcB].
  - split; [reflexivity |]. split; [reflexivity |].
    left. split; [exists junk; exact Hk |]. repeat split; reflexivity.
  - split; [eval_trace; reflexivity |]. split; [reflexivity |].
    right; left. exists p, junk, rc, h1.
    split; [exact Hp |]. split; [exact Hrc |].
    split; [exact Hk |]. split; [exact HA |].
    split; [eval_trace; reflexivity |].
    split; [eval_trace; reflexivity |].
    split; [eval_trace; reflexivity |].
    split; [reflexivity |].
    cbn [final fst snd k_heap set_heap]. apply lookup_delete_eq.
  - split; [eval_trace; reflexivity |]. split; [reflexivity |].
    right; right. exists p, junk, rcA, h1, rcB, h2.
    split; [exact Hp |]. split; [exact HrcA |]. split; [exact HrcB |].
    split; [exact Hk |]. split; [exact HA |]. split; [exact HB |].
    split; [eval_trace; reflexivity |].
    split; [eval_trace; reflexivity |].
    split; [eval_trace; reflexivity |].
    split; [reflexivity |].
    cbn [final fst snd k_heap set_heap]. apply lookup_delete_eq.
  - exfalso. apply Hfail. reflexivity.
Qed.

(** ** A full cycle: probe, then remove *)

(** C2.  After a probe that fully succeeds, the remove function releases in
    the reverse of the order of acquisition: [axidma_dma_init] ran before
    [axidma_chrdev_init], the second on the heap the first left;
    [axidma_chrdev_exit] runs before [axidma_dma_exit], the second on the
    heap the first left, and the handle storage is freed last, after both:
    the heap at the end is the one the two release functions produced, less
    the handle. *)
Theorem probe_then_remove_reverse_order (pd : Z) (k : kernel) :
  let r1 := probe pd k in
  result r1 = 0 ->
  let r2 := remove pd (final r1) in
  exists p rcA rcB,
    p <> NULL /\ 0 <= rcA /\ 0 <= rcB /\
    calls (trace r1) =
      [EvKmalloc p; EvDmaInit pd p rcA; EvChrdevInit p rcB; EvSetDrvdata pd p] /\
    acquires (trace r1) = [RHandle p; RDma p; RChrdev p] /\
    calls (trace r2) =
      [EvGetDrvdata pd p; EvChrdevExit p; EvDmaExit p; EvKfree p] /\
    releases (trace r2) = [RChrdev p; RDma p; RHandle p] /\
    releases (trace r2) = rev (acquires (trace r1)) /\
    (exists junk h1,
       ext_kmalloc E (k_heap k) = (p, junk) /\
       ext_dma_init E pd p (heap_for_dma_init pd p junk (k_heap k)) = (rcA, h1) /\
       ext_chrdev_init E p
         (heap_for_chrdev_init CHARACTER_DEVICE_NAME MINOR_NUMBER NUM_DEVICES p h1)
         = (rcB, k_heap (final r1))) /\
    k_drvdata (final r1) !! pd = Some p /\
    result r2 = 0 /\
    trace r2 = [EvGetDrvdata pd p; EvChrdevExit p; EvDmaExit p; EvKfree p] /\
    k_heap (final r2) =
      delete p (ext_dma_exit E p (ext_chrdev_exit E p (k_heap (final r1)))) /\
    k_heap (final r2) !! p = None.
Proof.
  intros r1 Hok r2. subst r1 r2.
  destruct (probe_runs pd k) as [junk Hk | p junk rc h1 Hk Hp HA Hrc
    | p junk rcA h1 rcB h2 Hk Hp HA HrcA HB HrcB
    | p junk rcA h1 rcB h2 Hk Hp HA HrcA HB HrcB];
    try discriminate Hok.
  exists p, rcA, rcB.
  rewrite remove_runs. cbn [final fst snd k_heap k_drvdata].
  rewrite lookup_insert_eq.
  change (default NULL (Some p)) with p.
  rewrite (nonnull_eqb p Hp). cbn [result trace fst snd k_heap set_heap].
  split; [exact Hp |]. split; [exact HrcA |]. split; [exact HrcB |].
  split; [eval_trace; reflexivity |].
  split; [eval_trace; reflexivity |].
  split; [eval_trace; reflexivity |].
  split; [eval_trace; reflexivity |].
  split; [eval_trace; reflexivity |].
  split; [exists junk, h1; repeat split; assumption |].
  repeat split. apply lookup_delete_eq.
Qed.

(** ** Publication of the handle *)

(** C3.  The probe function writes the [drvdata] slot of the device if and
    only if every acquisition step succeeded: the allocation answered a
    block, [axidma_dma_init] answered a non-negative value and so did
    [axidma_chrdev_init].  Then there is exactly one [dev_set_drvdata], it
    is the last thing done, right after the successful [axidma_chrdev_init],
    and the value returned is 0.  On each of the three failure paths
    (allocation, subsystem A, subsystem B) there is none and the slots are
    as they were. *)
Theorem probe_publishes_iff_success (pd : Z) (k : kernel) :
  let r := probe pd k in
  ((exists p, In (EvSetDrvdata pd p) (trace r)) <->
   (exists p, acquires (trace r) = [RHandle p; RDma p; RChrdev p])) /\
  (result r = 0 <-> exists p, In (EvSetDrvdata pd p) (trace r)) /\
  ((result r = 0 /\
    exists p junk rcA h1 rcB h2,
      p <> NULL /\ 0 <= rcA /\ 0 <= rcB /\
      ext_kmalloc E (k_heap k) = (p, junk) /\
      ext_dma_init E pd p (heap_for_dma_init pd p junk (k_heap k)) = (rcA, h1) /\
      ext_chrdev_init E p
        (heap_for_chrdev_init CHARACTER_DEVICE_NAME MINOR_NUMBER NUM_DEVICES p h1)
        = (rcB, h2) /\
      trace r =
        [EvKmalloc p; EvStore p (WPdev pd); EvDmaInit pd p rcA;
         EvStore p (WChrdevName CHARACTER_DEVICE_NAME);
         EvStore p (WMinorNum MINOR_NUMBER);
         EvStore p (WNumDevices NUM_DEVICES);
         EvChrdevInit p rcB; EvSetDrvdata pd p] /\
      drvdata_writes (trace r) = [EvSetDrvdata pd p] /\
      k_drvdata (final r) = <[pd := p]> (k_drvdata k))
   \/
   (result r = - ENOMEM /\
    (exists junk, ext_kmalloc E (k_heap k) = (NULL, junk)) /\
    trace r = [EvKmalloc NULL; EvErr alloc_failed_msg] /\
    drvdata_writes (trace r) = [] /\
    k_drvdata (final r) = k_drvdata k)
   \/
   (result r = - ENOSYS /\
    exists p junk rcA h1,
      p <> NULL /\ rcA < 0 /\
      ext_kmalloc E (k_heap k) = (p, junk) /\
      ext_dma_init E pd p (heap_for_dma_init pd p junk (k_heap k)) = (rcA, h1) /\
      trace r =
        [EvKmalloc p; EvStore p (WPdev pd); EvDmaInit pd p rcA; EvKfree p] /\
      drvdata_writes (trace r) = [] /\
      k_drvdata (final r) = k_drvdata k)
   \/
   (result r = - ENOSYS /\
    exists p junk rcA h1 rcB h2,
      p <> NULL /\ 0 <= rcA /\ rcB < 0 /\
      ext_kmalloc E (k_heap k) = (p, junk) /\
      ext_dma_init E pd p (heap_for_dma_init pd p junk (k_heap k)) = (rcA, h1) /\
      ext_chrdev_init E p
        (heap_for_chrdev_init CHARACTER_DEVICE_NAME MINOR_NUMBER NUM_DEVICES p h1)
        = (rcB, h2) /\
      trace r =
        [EvKmalloc p; EvStore p (WPdev pd); EvDmaInit pd p rcA;
         EvStore p (WChrdevName CHARACTER_DEVICE_NAME);
         EvStore p (WMinorNum MINOR_NUMBER);
         EvStore p (WNumDevices NUM_DEVICES);
         EvChrdevInit p rcB; EvDmaExit p; EvKfree p] /\
      drvdata_writes (trace r) = [] /\
      k_drvdata (final r) = k_drvdata k)).
Proof.
  intros r. subst r.
  destruct (probe_runs pd k) as [junk Hk | p junk rc h1 Hk Hp HA Hrc
    | p junk rcA h1 rcB h2 Hk Hp HA HrcA HB HrcB
    | p junk rcA h1 rcB h2 Hk Hp HA HrcA HB HrcB].
  - split; [| split].
    + split; intros [q Hq].
      * cbn in Hq. intuition discriminate.
      * revert Hq. eval_trace. discriminate.
    + split; [discriminate |].
      intros [q Hq]. cbn in Hq. intuition discriminate.
    + right; left. split; [reflexivity |].
      split; [exists junk; exact Hk |]. repeat split.
  - split; [| split].
    + split; intros [q Hq].
      * cbn in Hq. intuition discriminate.
      * revert Hq. eval_trace. discriminate.
    + split; [discriminate |].
      intros [q Hq]. cbn in Hq. intuition discriminate.
    + right; right; left. split; [reflexivity |].
      exists p, junk, rc, h1. repeat split; assumption.
  - split; [| split].
    + split; intros [q Hq].
      * cbn in Hq. intuition discriminate.
      * revert Hq. eval_trace. discriminate.
    + split; [discriminate |].
      intros [q Hq]. cbn in Hq. intuition discriminate.
    + right; right; right. split; [reflexivity |].
      exists p, junk, rcA, h1, rcB, h2. repeat split; assumption.
  - assert (Hin : In (EvSetDrvdata pd p)
                    [EvKmalloc p; EvStore p (WPdev pd); EvDmaInit pd p rcA;
                     EvStore p (WChrdevName CHARACTER_DEVICE_NAME);
                     EvStore p (WMinorNum MINOR_NUMBER);
                     EvStore p (WNumDevices NUM_DEVICES);
                     EvChrdevInit p rcB; EvSetDrvdata pd p])
      by (cbn; do 7 right; left; reflexivity).
    split; [| split].
    + split; intros _.
      * exists p. eval_trace. reflexivity.
      * exists p. exact Hin.
    + split; [intros _; exists p; exact Hin | reflexivity].
    + left. split; [reflexivity |].
      exists p, junk, rcA, h1, rcB, h2. repeat split; assumption.
Qed.

(** ** Error codes *)

(** C4, as amended.  A failing subsystem does not pass its own error value
    on: whenever [axidma_dma_init] or [axidma_chrdev_init] answers a
    negative value, whatever it is, the probe function returns [-ENOSYS]. *)
Theorem probe_subsystem_failure_is_enosys (pd : Z) (k : kernel) (p rc : Z) :
  let r := probe pd k in
  rc < 0 ->
  In (EvDmaInit pd p rc) (trace r) \/ In (EvChrdevInit p rc) (trace r) ->
  result r = - ENOSYS /\ result r <> - ENOMEM.
Proof.
  intros r Hrc Hin. subst r.
  destruct (probe_runs pd k) as [junk Hk | q junk rc' h1 Hk Hp HA Hrc'
    | q junk rcA h1 rcB h2 Hk Hp HA HrcA HB HrcB
    | q junk rcA h1 rcB h2 Hk Hp HA HrcA HB HrcB].
  - cbn in Hin. intuition discriminate.
  - split; [reflexivity | discriminate].
  - split; [reflexivity | discriminate].
  - exfalso. cbn in Hin.
    destruct Hin as [Hin | Hin];
      repeat (destruct Hin as [Hin | Hin]; try discriminate Hin);
      try contradiction; injection Hin as; lia.
Qed.

(** C6.  When the allocation of the handle fails, the probe function
    returns [-ENOMEM] and does nothing else but log the failure: no
    subsystem is initialised, nothing is released or freed, and the kernel
    state is unchanged. *)
Theorem probe_alloc_failure (pd : Z) (k : kernel) :
  (ext_kmalloc E (k_heap k)).1 = NULL ->
  let r := probe pd k in
  result r = - ENOMEM /\
  final r = k /\
  trace r = [EvKmalloc NULL; EvErr alloc_failed_msg] /\
  acquire_calls (trace r) = [] /\
  release_calls (trace r) = [] /\
  drvdata_writes (trace r) = [].
Proof.
  intros Hnull r. subst r.
  destruct (probe_runs pd k) as [junk Hk | p junk rc h1 Hk Hp HA Hrc
    | p junk rcA h1 rcB h2 Hk Hp HA HrcA HB HrcB
    | p junk rcA h1 rcB h2 Hk Hp HA HrcA HB HrcB];
    try (rewrite Hk in Hnull; cbn in Hnull; contradiction).
  repeat split.
Qed.

(** C10.  The probe function returns one of three values: 0 when every step
    succeeded, [-ENOMEM] when the allocation failed, and [-ENOSYS] when
    subsystem A or subsystem B failed; the two subsystem failures give the
    same value. *)
Theorem probe_return_values (pd : Z) (k : kernel) :
  let r := probe pd k in
  (result r = 0 /\
   exists p rcA rcB, p <> NULL /\ 0 <= rcA /\ 0 <= rcB /\
     calls (trace r) =
       [EvKmalloc p; EvDmaInit pd p rcA; EvChrdevInit p rcB; EvSetDrvdata pd p])
  \/
  (result r = - ENOMEM /\ calls (trace r) = [EvKmalloc NULL])
  \/
  (result r = - ENOSYS /\
   exists p rcA, p <> NULL /\ rcA < 0 /\
     calls (trace r) = [EvKmalloc p; EvDmaInit pd p rcA; EvKfree p])
  \/
  (result r = - ENOSYS /\
   exists p rcA rcB, p <> NULL /\ 0 <= rcA /\ rcB < 0 /\
     calls (trace r) =
       [EvKmalloc p; EvDmaInit pd p rcA; EvChrdevInit p rcB;
        EvDmaExit p; EvKfree p]).
Proof.
  intros r. subst r.
  destruct (probe_runs pd k) as [junk Hk | p junk rc h1 Hk Hp HA Hrc
    | p junk rcA h1 rcB h2 Hk Hp HA HrcA HB HrcB
    | p junk rcA h1 rcB h2 Hk Hp HA HrcA HB HrcB].
  - right; left. split; reflexivity.
  - right; right; left. split; [reflexivity |].
    exists p, rc. repeat split; assumption.
  - right; right; right. split; [reflexivity |].
    exists p, rcA, rcB. repeat split; assumption.
  - left. split; [reflexivity |].
    exists p, rcA, rcB. repeat split; assumption.
Qed.

(** ** Teardown *)

(** C5, as amended.  On an attached device the remove function runs
    [axidma_chrdev_exit], then [axidma_dma_exit], then frees the handle
    storage, once; it never writes the [drvdata] slot, which still holds the
    address of the freed handle when the function returns. *)
Theorem remove_releases_keeps_drvdata (pd p : Z) (k : kernel) :
  k_drvdata k !! pd = Some p ->
  p <> NULL ->
  let r := remove pd k in
  calls (trace r) =
    [EvGetDrvdata pd p; EvChrdevExit p; EvDmaExit p; EvKfree p] /\
  frees_of p (trace r) = [EvKfree p] /\
  k_heap (final r) !! p = None /\
  drvdata_writes (trace r) = [] /\
  k_drvdata (final r) = k_drvdata k /\
  k_drvdata (final r) !! pd = Some p.
Proof.
  intros Hpd Hp r. subst r.
  rewrite remove_runs, Hpd.
  change (default NULL (Some p)) with p.
  rewrite (nonnull_eqb p Hp).
  cbn [result final trace fst snd k_heap k_drvdata set_heap].
  repeat split.
  - cbv [frees_of]. cbn [List.filter is_kfree_of]. rewrite Z.eqb_refl. reflexivity.
  - apply lookup_delete_eq.
  - exact Hpd.
Qed.

(** C7.  The remove function never reports a failure and always runs to
    its end: on every kernel state it calls [axidma_chrdev_exit], then
    [axidma_dma_exit] on the heap the first one left, then frees the handle,
    and returns 0.  What the release functions do has no influence on the
    calls made or on the value returned: with any other collaborators the
    same calls are made and 0 is returned. *)
Theorem remove_never_fails (pd : Z) (k : kernel) :
  let r := remove pd k in
  let p := default NULL (k_drvdata k !! pd) in
  result r = 0 /\
  release_calls (trace r) = [EvChrdevExit p; EvDmaExit p; EvKfree p] /\
  trace r = [EvGetDrvdata pd p; EvChrdevExit p; EvDmaExit p; EvKfree p] /\
  k_heap (final r) =
    (if p =? NULL
     then ext_dma_exit E p (ext_chrdev_exit E p (k_heap k))
     else delete p (ext_dma_exit E p (ext_chrdev_exit E p (k_heap k)))) /\
  (p <> NULL -> k_heap (final r) !! p = None) /\
  k_drvdata (final r) = k_drvdata k /\
  (forall E' : externs,
     result (xilinx_dma_bridge_remove E' pd k) = 0 /\
     trace (xilinx_dma_bridge_remove E' pd k) = trace r).
Proof.
  intros r p. subst r p.
  rewrite remove_runs. cbn [result final trace fst snd].
  split; [reflexivity |]. split; [reflexivity |]. split; [reflexivity |].
  split; [| split; [| split]].
  - destruct (default NULL (k_drvdata k !! pd) =? NULL); reflexivity.
  - intros Hp. rewrite (nonnull_eqb _ Hp).
    cbn [k_heap set_heap]. apply lookup_delete_eq.
  - destruct (default NULL (k_drvdata k !! pd) =? NULL); reflexivity.
  - intros E'.
    unfold xilinx_dma_bridge_remove, bind, dev_get_drvdata, kfree,
      axidma_chrdev_exit, axidma_dma_exit, ret.
    split; reflexivity.
Qed.

(** C9, as amended.  The remove function does not check that a handle is
    attached: when the [drvdata] slot is [NULL] it still calls
    [axidma_chrdev_exit], [axidma_dma_exit] and [kfree], each with [NULL],
    and returns 0.  The [kfree] of [NULL] frees nothing, and the slot is
    left as it was. *)
Theorem remove_without_handle (pd : Z) (k : kernel) :
  default NULL (k_drvdata k !! pd) = NULL ->
  let r := remove pd k in
  result r = 0 /\
  trace r =
    [EvGetDrvdata pd NULL; EvChrdevExit NULL; EvDmaExit NULL; EvKfree NULL] /\
  k_heap (final r) = ext_dma_exit E NULL (ext_chrdev_exit E NULL (k_heap k)) /\
  k_drvdata (final r) = k_drvdata k.
Proof.
  intros Hnone r. subst r.
  rewrite remove_runs, Hnone. repeat split.
Qed.

(** ** Configuration of the handle *)

(** The probe function only assigns fields of the block it has just
    allocated. *)
Lemma probe_stores_to_new_block (pd : Z) (k : kernel) (q : Z) (w : field_write) :
  In (EvStore q w) (trace (probe pd k)) ->
  q <> NULL /\ In (EvKmalloc q) (trace (probe pd k)).
Proof.
  destruct (probe_runs pd k) as [junk Hk | p junk rc h1 Hk Hp HA Hrc
    | p junk rcA h1 rcB h2 Hk Hp HA HrcA HB HrcB
    | p junk rcA h1 rcB h2 Hk Hp HA HrcA HB HrcB];
    cbn [trace snd]; intros Hin; cbn [In] in Hin;
    repeat match type of Hin with
      | _ \/ _ =>
          let Heq := fresh "Heq" in
          destruct Hin as [Heq | Hin];
          [ first [ discriminate Heq
                  | injection Heq as Hq _; subst q;
                    split; [assumption | left; reflexivity] ]
          | ]
      end;
    contradiction.
Qed.

(** C8.  After a probe that fully succeeds, the handle published in the
    [drvdata] slot carries the configuration given to the driver:
    [chrdev_name] is [CHARACTER_DEVICE_NAME], [minor_num] is [MINOR_NUMBER]
    and [num_devices] is [NUM_DEVICES].  Each of the three fields is assigned
    once, after [axidma_dma_init] has succeeded and before
    [axidma_chrdev_init] is called.  Afterwards the driver does not touch
    them: the remove function assigns no field, and a probe assigns only
    fields of the block it has itself just allocated.  The subsystems are
    assumed not to free the handle nor to overwrite its configuration while
    they initialise. *)
Theorem probe_publishes_config (pd : Z) (k : kernel) :
  dma_init_keeps_handle E ->
  chrdev_init_keeps_config E ->
  let r := probe pd k in
  result r = 0 ->
  exists p d rcA rcB,
    k_drvdata (final r) !! pd = Some p /\
    k_heap (final r) !! p = Some d /\
    chrdev_name d = CHARACTER_DEVICE_NAME /\
    minor_num d = MINOR_NUMBER /\
    num_devices d = NUM_DEVICES /\
    0 <= rcA /\
    trace r =
      [EvKmalloc p; EvStore p (WPdev pd); EvDmaInit pd p rcA;
       EvStore p (WChrdevName CHARACTER_DEVICE_NAME);
       EvStore p (WMinorNum MINOR_NUMBER);
       EvStore p (WNumDevices NUM_DEVICES);
       EvChrdevInit p rcB; EvSetDrvdata pd p] /\
    config_stores (trace r) =
      [EvStore p (WChrdevName CHARACTER_DEVICE_NAME);
       EvStore p (WMinorNum MINOR_NUMBER);
       EvStore p (WNumDevices NUM_DEVICES)] /\
    (forall pd' k', config_stores (trace (remove pd' k')) = []) /\
    (forall pd' k' q w,
       In (EvStore q w) (trace (probe pd' k')) ->
       q <> NULL /\ In (EvKmalloc q) (trace (probe pd' k'))).
Proof.
  intros HkeepA HkeepB r Hok. subst r.
  pose proof probe_stores_to_new_block as Hnew.
  destruct (probe_runs pd k) as [junk Hk | p junk rc h1 Hk Hp HA Hrc
    | p junk rcA h1 rcB h2 Hk Hp HA HrcA HB HrcB
    | p junk rcA h1 rcB h2 Hk Hp HA HrcA HB HrcB];
    try discriminate Hok.
  (* the handle is still allocated when subsystem A returns *)
  assert (H1 : is_Some (h1 !! p)).
  { specialize (HkeepA pd p
      (alter (write_field (WPdev pd)) p (<[p := junk]> (k_heap k)))).
    rewrite HA in HkeepA. apply HkeepA.
    rewrite lookup_alter_eq, lookup_insert_eq. cbn. eauto. }
  destruct H1 as [d1 Hd1].
  (* the three assignments *)
  set (d2 := write_field (WNumDevices NUM_DEVICES)
               (write_field (WMinorNum MINOR_NUMBER)
                  (write_field (WChrdevName CHARACTER_DEVICE_NAME) d1))).
  assert (H2 :
    alter (write_field (WNumDevices NUM_DEVICES)) p
      (alter (write_field (WMinorNum MINOR_NUMBER)) p
         (alter (write_field (WChrdevName CHARACTER_DEVICE_NAME)) p h1))
      !! p = Some d2).
  { rewrite !lookup_alter_eq, Hd1. reflexivity. }
  (* subsystem B leaves them alone *)
  destruct (HkeepB p _ d2 H2) as [d [Hd Hcfg]].
  rewrite HB in Hd. cbn [snd] in Hd.
  exists p, d, rcA, rcB.
  cbn [result final trace fst snd k_heap k_drvdata].
  injection Hcfg as Hname Hminor Hnum.
  split; [apply lookup_insert_eq |].
  do 7 (split; [first [assumption | reflexivity] |]).
  split; [| exact Hnew].
  intros pd' k'. rewrite remove_runs. reflexivity.
Qed.

End Properties.

(** * The properties at concrete collaborators

    One platform device (at address 1000), the module parameters at their
    defaults, one device, an allocator that answers 4096 (or [NULL]), and
    subsystems whose [init] functions answer given values. *)

Lemma sample_dma_init_keeps_handle (p rcA rcB : Z) :
  dma_init_keeps_handle (sample_externs p rcA rcB).
Proof.
  intros pd q h [d Hd]. cbn.
  rewrite lookup_alter_eq, Hd. cbn. eauto.
Qed.

Lemma sample_chrdev_init_keeps_config (p rcA rcB : Z) :
  chrdev_init_keeps_config (sample_externs p rcA rcB).
Proof.
  intros q h d Hd. cbn.
  exists (set_chrdev_state 1 d). split.
  - rewrite lookup_alter_eq, Hd. reflexivity.
  - reflexivity.
Qed.

(** The four paths of the probe function, and the remove function, on these
    collaborators. *)
Example sample_probe_no_memory :
  sample_probe NULL 0 0 empty_kernel =
    (-12, empty_kernel, [EvKmalloc 0; EvErr alloc_failed_msg]).
Proof. reflexivity. Qed.

Example sample_probe_dma_fails :
  trace (sample_probe 4096 (-5) 0 empty_kernel) =
    [EvKmalloc 4096; EvStore 4096 (WPdev 1000); EvDmaInit 1000 4096 (-5);
     EvKfree 4096].
Proof. reflexivity. Qed.

Example sample_probe_chrdev_fails :
  trace (sample_probe 4096 0 (-16) empty_kernel) =
    [EvKmalloc 4096; EvStore 4096 (WPdev 1000); EvDmaInit 1000 4096 0;
     EvStore 4096 (WChrdevName XILINX_DMA_BRIDGE_DRIVER_NAME);
     EvStore 4096 (WMinorNum 0); EvStore 4096 (WNumDevices 1);
     EvChrdevInit 4096 (-16); EvDmaExit 4096; EvKfree 4096].
Proof. reflexivity. Qed.

Example sample_probe_attaches :
  let r := sample_probe 4096 0 0 empty_kernel in
  result r = 0 /\
  k_heap (final r) !! 4096 =
    Some (mk_axidma_device 1000 XILINX_DMA_BRIDGE_DRIVER_NAME 0 1 1 1) /\
  k_drvdata (final r) !! 1000 = Some 4096.
Proof. vm_compute. repeat split. Qed.

Example sample_remove_detaches :
  trace (sample_remove 4096 0 0 (final (sample_probe 4096 0 0 empty_kernel))) =
    [EvGetDrvdata 1000 4096; EvChrdevExit 4096; EvDmaExit 4096; EvKfree 4096].
Proof. vm_compute. reflexivity. Qed.

(** Subsystem B fails with [-EBUSY]: subsystem A is released, the handle is
    freed. *)
Lemma probe_failure_rolls_back_witness :
  result (sample_probe 4096 0 (-16) empty_kernel) <> 0 /\
  releases (trace (sample_probe 4096 0 (-16) empty_kernel)) =
    rev (acquires (trace (sample_probe 4096 0 (-16) empty_kernel))).
Proof.
  assert (H : result (sample_probe 4096 0 (-16) empty_kernel) <> 0)
    by (vm_compute; discriminate).
  split; [exact H |].
  exact (proj1 (probe_failure_rolls_back (sample_externs 4096 0 (-16))
                  XILINX_DMA_BRIDGE_DRIVER_NAME 0 1 1000 empty_kernel H)).
Defined.

(** Everything succeeds, then the device is removed. *)
Lemma probe_then_remove_reverse_order_witness :
  result (sample_probe 4096 0 0 empty_kernel) = 0 /\
  exists p,
    releases (trace (sample_remove 4096 0 0
                       (final (sample_probe 4096 0 0 empty_kernel)))) =
      [RChrdev p; RDma p; RHandle p].
Proof.
  assert (H : result (sample_probe 4096 0 0 empty_kernel) = 0)
    by (vm_compute; reflexivity).
  split; [exact H |].
  destruct (probe_then_remove_reverse_order (sample_externs 4096 0 0)
              XILINX_DMA_BRIDGE_DRIVER_NAME 0 1 1000 empty_kernel H)
    as (p & rcA & rcB & _ & _ & _ & _ & _ & _ & Hrel & _).
  exists p. exact Hrel.
Defined.

(** C4, as stated, fails: subsystem A reports [-EIO] (-5) and the probe
    function returns [-ENOSYS] (-38), not -5. *)
Lemma probe_discards_subsystem_error :
  let r := sample_probe 4096 (-5) 0 empty_kernel in
  trace r =
    [EvKmalloc 4096; EvStore 4096 (WPdev 1000); EvDmaInit 1000 4096 (-5);
     EvKfree 4096] /\
  result r = -38 /\
  result r <> -5.
Proof.
  vm_compute. repeat split. discriminate.
Qed.

Lemma probe_subsystem_failure_is_enosys_witness :
  -5 < 0 /\
  In (EvDmaInit 1000 4096 (-5)) (trace (sample_probe 4096 (-5) 0 empty_kernel)) /\
  result (sample_probe 4096 (-5) 0 empty_kernel) = - ENOSYS.
Proof.
  assert (Hrc : -5 < 0) by lia.
  assert (Hin : In (EvDmaInit 1000 4096 (-5))
                  (trace (sample_probe 4096 (-5) 0 empty_kernel)))
    by (vm_compute; right; right; left; reflexivity).
  split; [exact Hrc |]. split; [exact Hin |].
  exact (proj1 (probe_subsystem_failure_is_enosys (sample_externs 4096 (-5) 0)
                  XILINX_DMA_BRIDGE_DRIVER_NAME 0 1 1000 empty_kernel
                  4096 (-5) Hrc (or_introl Hin))).
Defined.

(** C5, as stated, fails: after a successful probe and the remove, the
    [drvdata] slot of the device still holds 4096, the address of the
    handle that has just been freed. *)
Lemma remove_leaves_drvdata_set :
  let r1 := sample_probe 4096 0 0 empty_kernel in
  let r2 := sample_remove 4096 0 0 (final r1) in
  result r1 = 0 /\
  k_drvdata (final r1) !! 1000 = Some 4096 /\
  result r2 = 0 /\
  k_heap (final r2) !! 4096 = None /\
  k_drvdata (final r2) !! 1000 = Some 4096.
Proof.
  vm_compute. repeat split.
Qed.

Lemma remove_releases_keeps_drvdata_witness :
  k_drvdata (final (sample_probe 4096 0 0 empty_kernel)) !! 1000 = Some 4096 /\
  4096 <> NULL /\
  k_drvdata (final (sample_remove 4096 0 0
                      (final (sample_probe 4096 0 0 empty_kernel)))) !! 1000
    = Some 4096.
Proof.
  assert (Hpd : k_drvdata (final (sample_probe 4096 0 0 empty_kernel)) !! 1000
                = Some 4096) by (vm_compute; reflexivity).
  assert (Hp : 4096 <> NULL) by (vm_compute; discriminate).
  split; [exact Hpd |]. split; [exact Hp |].
  destruct (remove_releases_keeps_drvdata (sample_externs 4096 0 0) 1000 4096
              (final (sample_probe 4096 0 0 empty_kernel)) Hpd Hp)
    as (_ & _ & _ & _ & _ & Hkept).
  exact Hkept.
Defined.

(** The allocator answers [NULL]. *)
Lemma probe_alloc_failure_witness :
  (ext_kmalloc (sample_externs NULL 0 0) (k_heap empty_kernel)).1 = NULL /\
  result (sample_probe NULL 0 0 empty_kernel) = - ENOMEM /\
  acquire_calls (trace (sample_probe NULL 0 0 empty_kernel)) = [].
Proof.
  assert (H : (ext_kmalloc (sample_externs NULL 0 0) (k_heap empty_kernel)).1
              = NULL) by reflexivity.
  split; [exact H |].
  destruct (probe_alloc_failure (sample_externs NULL 0 0)
              XILINX_DMA_BRIDGE_DRIVER_NAME 0 1 1000 empty_kernel H)
    as (Hres & _ & _ & Hacq & _).
  split; [exact Hres | exact Hacq].
Defined.

(** The published handle carries the default configuration. *)
Lemma probe_publishes_config_witness :
  result (sample_probe 4096 0 0 empty_kernel) = 0 /\
  exists p d,
    k_drvdata (final (sample_probe 4096 0 0 empty_kernel)) !! 1000 = Some p /\
    k_heap (final (sample_probe 4096 0 0 empty_kernel)) !! p = Some d /\
    chrdev_name d = XILINX_DMA_BRIDGE_DRIVER_NAME /\
    minor_num d = 0 /\
    num_devices d = 1.
Proof.
  assert (H : result (sample_probe 4096 0 0 empty_kernel) = 0)
    by (vm_compute; reflexivity).
  split; [exact H |].
  destruct (probe_publishes_config (sample_externs 4096 0 0)
              XILINX_DMA_BRIDGE_DRIVER_NAME 0 1 1000 empty_kernel
              (sample_dma_init_keeps_handle 4096 0 0)
              (sample_chrdev_init_keeps_config 4096 0 0) H)
    as (p & d & rcA & rcB & Hpd & Hd & Hname & Hminor & Hnum & _).
  exists p, d. repeat split; assumption.
Defined.

(** The attached sample device is removed: 0 is returned and the handle at
    4096 is gone from the heap. *)
Lemma remove_never_fails_witness :
  default NULL (k_drvdata attached_kernel !! 1000) <> NULL /\
  result (sample_remove 4096 0 0 attached_kernel) = 0 /\
  k_heap (final (sample_remove 4096 0 0 attached_kernel))
    !! default NULL (k_drvdata attached_kernel !! 1000) = None.
Proof.
  assert (H : default NULL (k_drvdata attached_kernel !! 1000) <> NULL)
    by (vm_compute; discriminate).
  split; [exact H |].
  destruct (remove_never_fails (sample_externs 4096 0 0) 1000 attached_kernel)
    as (Hres & _ & _ & _ & Hfreed & _).
  split; [exact Hres | exact (Hfreed H)].
Defined.

(** C9, as stated, fails: on a device that was never probed, the remove
    function calls both subsystem release functions and [kfree], with
    [NULL]. *)
Lemma remove_unattached_still_releases :
  let r := sample_remove 4096 0 0 empty_kernel in
  k_drvdata empty_kernel !! 1000 = None /\
  result r = 0 /\
  release_calls (trace r) = [EvChrdevExit 0; EvDmaExit 0; EvKfree 0] /\
  release_calls (trace r) <> [].
Proof.
  vm_compute. repeat split. discriminate.
Qed.

Lemma remove_without_handle_witness :
  default NULL (k_drvdata empty_kernel !! 1000) = NULL /\
  trace (sample_remove 4096 0 0 empty_kernel) =
    [EvGetDrvdata 1000 NULL; EvChrdevExit NULL; EvDmaExit NULL; EvKfree NULL].
Proof.
  assert (H : default NULL (k_drvdata empty_kernel !! 1000) = NULL)
    by reflexivity.
  split; [exact H |].
  destruct (remove_without_handle (sample_externs 4096 0 0) 1000 empty_kernel H)
    as (_ & Htr & _).
  exact Htr.
Defined.

(** * Effects on the heap, and how probe and remove compose *)

Section Composition.

Variable E : externs.
Variable CHARACTER_DEVICE_NAME : string.
Variable MINOR_NUMBER : Z.
Variable NUM_DEVICES : Z.

Local Abbreviation probe :=
  (xilinx_dma_bridge_probe E CHARACTER_DEVICE_NAME MINOR_NUMBER NUM_DEVICES).
Local Abbreviation remove := (xilinx_dma_bridge_remove E).
Local Abbreviation paths :=
  (probe_runs E CHARACTER_DEVICE_NAME MINOR_NUMBER NUM_DEVICES).

(** Split a membership in an explicit trace into its cases. *)
Ltac in_trace H :=
  cbn [trace snd In] in H;
  repeat match type of H with
    | _ \/ _ => let Heq := fresh "Heq" in destruct H as [Heq | H]
    end.

Lemma set_heap_same (k : kernel) : set_heap (k_heap k) k = k.
Proof. destruct k; reflexivity. Qed.

(** Freeing a block that was not there before, from a heap that differs
    from the old one at that block only, gives the old heap back. *)
Lemma delete_restores (h h' : gmap Z axidma_device) (p : Z) :
  h !! p = None ->
  (forall q, q <> p -> h' !! q = h !! q) ->
  delete p h' = h.
Proof.
  intros Hfresh Hsame. apply map_eq. intros q.
  destruct (decide (q = p)) as [-> | Hq].
  - rewrite lookup_delete_eq. symmetry. exact Hfresh.
  - rewrite lookup_delete_ne by congruence. apply Hsame, Hq.
Qed.

(** The heap given to [axidma_dma_init] differs from the initial one at the
    new block only. *)
Lemma new_block_only (h : gmap Z axidma_device) (p q : Z)
    (junk : axidma_device) (w : field_write) :
  q <> p -> alter (write_field w) p (<[p := junk]> h) !! q = h !! q.
Proof.
  intros Hq.
  rewrite lookup_alter_ne by congruence.
  apply lookup_insert_ne. congruence.
Qed.

Lemma config_stores_elsewhere (h : gmap Z axidma_device) (p q : Z)
    (w1 w2 w3 : field_write) :
  q <> p ->
  alter (write_field w3) p (alter (write_field w2) p
    (alter (write_field w1) p h)) !! q = h !! q.
Proof.
  intros Hq. rewrite !lookup_alter_ne by congruence. reflexivity.
Qed.

(** X1.  A probe that fails after the allocation leaves no block behind:
    the address [kmalloc] answered is free again when the probe returns,
    whatever the subsystems did. *)
Theorem probe_failure_frees_block (pd : Z) (k : kernel) (p : Z) :
  let r := probe pd k in
  result r <> 0 ->
  In (EvKmalloc p) (trace r) ->
  p <> NULL ->
  k_heap (final r) !! p = None.
Proof.
  intros r Hfail Hin Hp. subst r.
  destruct (paths pd k) as [junk Hk | q junk rc h1 Hk Hq HA Hrc
    | q junk rcA h1 rcB h2 Hk Hq HA HrcA HB HrcB
    | q junk rcA h1 rcB h2 Hk Hq HA HrcA HB HrcB].
  - in_trace Hin; try discriminate; try contradiction.
    injection Heq as Heq. congruence.
  - in_trace Hin; try discriminate; try contradiction.
    injection Heq as ->. apply lookup_delete_eq.
  - in_trace Hin; try discriminate; try contradiction.
    injection Heq as ->. apply lookup_delete_eq.
  - exfalso. apply Hfail. reflexivity.
Qed.

(** X2.  With subsystems that change only the handle they are given and an
    allocator that answers an unused address, a failed probe leaves the
    kernel state exactly as it found it. *)
Theorem probe_failure_restores_kernel (pd : Z) (k : kernel) :
  init_local E ->
  exit_local E ->
  k_heap k !! (ext_kmalloc E (k_heap k)).1 = None ->
  let r := probe pd k in
  result r <> 0 ->
  final r = k.
Proof.
  intros [HlocA HlocB] [HlocXA _] Hfresh r Hfail. subst r.
  destruct (paths pd k) as [junk Hk | p junk rc h1 Hk Hp HA Hrc
    | p junk rcA h1 rcB h2 Hk Hp HA HrcA HB HrcB
    | p junk rcA h1 rcB h2 Hk Hp HA HrcA HB HrcB].
  - reflexivity.
  - rewrite Hk in Hfresh. cbn [fst] in Hfresh.
    cbn [final fst snd].
    rewrite (delete_restores (k_heap k) h1 p Hfresh); [apply set_heap_same |].
    intros q Hq.
    replace h1 with (rc, h1).2 by reflexivity.
    rewrite <- HA, HlocA by exact Hq. apply new_block_only, Hq.
  - rewrite Hk in Hfresh. cbn [fst] in Hfresh.
    cbn [final fst snd].
    rewrite (delete_restores (k_heap k) (ext_dma_exit E p h2) p Hfresh);
      [apply set_heap_same |].
    intros q Hq.
    rewrite (HlocXA p q h2 Hq).
    replace h2 with (rcB, h2).2 by reflexivity.
    rewrite <- HB, HlocB, config_stores_elsewhere by exact Hq.
    replace h1 with (rcA, h1).2 by reflexivity.
    rewrite <- HA, HlocA by exact Hq. apply new_block_only, Hq.
  - exfalso. apply Hfail. reflexivity.
Qed.

(** X3.  A probe of one device never changes the [drvdata] slot of another
    device, whether it succeeds or fails. *)
Theorem probe_keeps_other_drvdata (pd pd' : Z) (k : kernel) :
  pd' <> pd ->
  k_drvdata (final (probe pd k)) !! pd' = k_drvdata k !! pd'.
Proof.
  intros Hne.
  destruct (paths pd k) as [junk Hk | p junk rc h1 Hk Hp HA Hrc
    | p junk rcA h1 rcB h2 Hk Hp HA HrcA HB HrcB
    | p junk rcA h1 rcB h2 Hk Hp HA HrcA HB HrcB];
    cbn [final fst snd k_drvdata set_heap]; try reflexivity.
  apply lookup_insert_ne. congruence.
Qed.

(** The remove function leaves every [drvdata] slot as it was. *)
Lemma remove_keeps_drvdata (pd : Z) (k : kernel) :
  k_drvdata (final (remove pd k)) = k_drvdata k.
Proof.
  rewrite remove_runs. cbn [final fst snd].
  destruct (default NULL (k_drvdata k !! pd) =? NULL); reflexivity.
Qed.

Lemma remove_trace (pd : Z) (k : kernel) :
  trace (remove pd k) =
    [EvGetDrvdata pd (default NULL (k_drvdata k !! pd));
     EvChrdevExit (default NULL (k_drvdata k !! pd));
     EvDmaExit (default NULL (k_drvdata k !! pd));
     EvKfree (default NULL (k_drvdata k !! pd))].
Proof. rewrite remove_runs. reflexivity. Qed.

(** X4.  Nothing stops a second remove: as the first one left the
    [drvdata] slot alone, calling the function again on the same device
    repeats the same calls on the same pointer, so the handle is passed to
    [kfree] twice. *)
Theorem remove_again_repeats_releases (pd : Z) (k : kernel) :
  let r1 := remove pd k in
  let r2 := remove pd (final r1) in
  let p := default NULL (k_drvdata k !! pd) in
  result r2 = 0 /\
  trace r2 = trace r1 /\
  frees_of p (trace r1 ++ trace r2) = [EvKfree p; EvKfree p].
Proof.
  intros r1 r2 p. subst r1 r2 p.
  rewrite (remove_trace pd (final (remove pd k))), remove_keeps_drvdata.
  rewrite (remove_trace pd k).
  split; [rewrite remove_runs; reflexivity |].
  split; [reflexivity |].
  cbv [frees_of]. cbn [app List.filter is_kfree_of].
  rewrite Z.eqb_refl. reflexivity.
Qed.

(** X5.  A probe does not look at the [drvdata] slot before it writes it:
    on a device that is already attached, a second successful probe
    publishes a new handle in its place, releases nothing, and leaves the
    old handle allocated. *)
Theorem reprobe_leaves_old_handle (pd : Z) (k : kernel)
    (p0 : Z) (d0 : axidma_device) :
  init_local E ->
  k_drvdata k !! pd = Some p0 ->
  k_heap k !! p0 = Some d0 ->
  k_heap k !! (ext_kmalloc E (k_heap k)).1 = None ->
  let r := probe pd k in
  result r = 0 ->
  exists p,
    p <> p0 /\
    k_drvdata (final r) !! pd = Some p /\
    k_heap (final r) !! p0 = Some d0 /\
    release_calls (trace r) = [].
Proof.
  intros [HlocA HlocB] Hpd Hd0 Hfresh r Hok. subst r.
  destruct (paths pd k) as [junk Hk | p junk rc h1 Hk Hp HA Hrc
    | p junk rcA h1 rcB h2 Hk Hp HA HrcA HB HrcB
    | p junk rcA h1 rcB h2 Hk Hp HA HrcA HB HrcB];
    try discriminate Hok.
  rewrite Hk in Hfresh. cbn [fst] in Hfresh.
  assert (Hne : p0 <> p) by congruence.
  exists p. cbn [final trace fst snd k_heap k_drvdata].
  split; [congruence |].
  split; [apply lookup_insert_eq |].
  split; [| reflexivity].
  replace h2 with (rcB, h2).2 by reflexivity.
  rewrite <- HB, HlocB, config_stores_elsewhere by exact Hne.
  replace h1 with (rcA, h1).2 by reflexivity.
  rewrite <- HA, HlocA, new_block_only by exact Hne.
  exact Hd0.
Qed.

(** X6.  With release functions that change only the handle they are given,
    removing one device leaves every other block of the heap, the handles
    of other devices among them, as it was. *)
Theorem remove_keeps_other_blocks (pd : Z) (k : kernel) (q : Z) :
  exit_local E ->
  q <> default NULL (k_drvdata k !! pd) ->
  k_heap (final (remove pd k)) !! q = k_heap k !! q.
Proof.
  intros [HlocA HlocB] Hq.
  rewrite remove_runs. cbn [final fst snd].
  destruct (default NULL (k_drvdata k !! pd) =? NULL);
    cbn [k_heap set_heap];
    rewrite ?lookup_delete_ne by congruence;
    rewrite HlocA, HlocB by exact Hq; reflexivity.
Qed.

(** X7.  The handle published by a successful probe records the platform
    device it was probed for in its [pdev] field, provided the subsystems
    do not free the handle or overwrite that field while they
    initialise. *)
Theorem probe_publishes_pdev (pd : Z) (k : kernel) :
  init_keeps_pdev E ->
  let r := probe pd k in
  result r = 0 ->
  exists p d,
    k_drvdata (final r) !! pd = Some p /\
    k_heap (final r) !! p = Some d /\
    pdev d = pd.
Proof.
  intros [HkeepA HkeepB] r Hok. subst r.
  destruct (paths pd k) as [junk Hk | p junk rc h1 Hk Hp HA Hrc
    | p junk rcA h1 rcB h2 Hk Hp HA HrcA HB HrcB
    | p junk rcA h1 rcB h2 Hk Hp HA HrcA HB HrcB];
    try discriminate Hok.
  destruct (HkeepA pd p
              (alter (write_field (WPdev pd)) p (<[p := junk]> (k_heap k)))
              (write_field (WPdev pd) junk)) as [d1 [Hd1 Hpd1]].
  { rewrite lookup_alter_eq, lookup_insert_eq. reflexivity. }
  rewrite HA in Hd1. cbn [snd] in Hd1. cbn [write_field pdev] in Hpd1.
  destruct (HkeepB p
              (alter (write_field (WNumDevices NUM_DEVICES)) p
                 (alter (write_field (WMinorNum MINOR_NUMBER)) p
                    (alter (write_field (WChrdevName CHARACTER_DEVICE_NAME))
                       p h1)))
              (write_field (WNumDevices NUM_DEVICES)
                 (write_field (WMinorNum MINOR_NUMBER)
                    (write_field (WChrdevName CHARACTER_DEVICE_NAME) d1))))
    as [d2 [Hd2 Hpd2]].
  { rewrite !lookup_alter_eq, Hd1. reflexivity. }
  rewrite HB in Hd2. cbn [snd] in Hd2. cbn [write_field pdev] in Hpd2.
  exists p, d2. cbn [final fst snd k_heap k_drvdata].
  split; [apply lookup_insert_eq |].
  split; [exact Hd2 | congruence].
Qed.

(** X8.  With subsystems that change only the handle they are given and an
    allocator that answers an unused address, a successful probe followed by
    the remove gives back the heap the probe started from; what remains is
    the [drvdata] slot, still holding the address of the freed handle. *)
Theorem probe_remove_restores_heap (pd : Z) (k : kernel) :
  init_local E ->
  exit_local E ->
  k_heap k !! (ext_kmalloc E (k_heap k)).1 = None ->
  let r1 := probe pd k in
  result r1 = 0 ->
  let r2 := remove pd (final r1) in
  k_heap (final r2) = k_heap k /\
  exists p,
    p <> NULL /\
    k_heap (final r2) !! p = None /\
    k_drvdata (final r2) = <[pd := p]> (k_drvdata k).
Proof.
  intros [HlocA HlocB] [HlocXA HlocXB] Hfresh r1 Hok r2. subst r1 r2.
  destruct (paths pd k) as [junk Hk | p junk rc h1 Hk Hp HA Hrc
    | p junk rcA h1 rcB h2 Hk Hp HA HrcA HB HrcB
    | p junk rcA h1 rcB h2 Hk Hp HA HrcA HB HrcB];
    try discriminate Hok.
  rewrite Hk in Hfresh. cbn [fst] in Hfresh.
  rewrite remove_runs. cbn [final fst snd k_heap k_drvdata].
  rewrite lookup_insert_eq.
  change (default NULL (Some p)) with p.
  rewrite (nonnull_eqb p Hp). cbn [k_heap k_drvdata set_heap].
  assert (Hheap :
    delete p (ext_dma_exit E p (ext_chrdev_exit E p h2)) = k_heap k).
  { apply delete_restores; [exact Hfresh |].
    intros q Hq.
    rewrite HlocXA, HlocXB by exact Hq.
    replace h2 with (rcB, h2).2 by reflexivity.
    rewrite <- HB, HlocB, config_stores_elsewhere by exact Hq.
    replace h1 with (rcA, h1).2 by reflexivity.
    rewrite <- HA, HlocA by exact Hq. apply new_block_only, Hq. }
  split; [exact Hheap |].
  exists p. split; [exact Hp |].
  split; [apply lookup_delete_eq | reflexivity].
Qed.

(** X9.  Only a negative status counts as a failure: when
    [axidma_chrdev_init] answers zero or a positive value, the probe
    publishes the handle and returns 0, not the value it was given. *)
Theorem probe_nonnegative_status_is_success (pd : Z) (k : kernel) (p rc : Z) :
  let r := probe pd k in
  In (EvChrdevInit p rc) (trace r) ->
  0 <= rc ->
  result r = 0 /\ k_drvdata (final r) !! pd = Some p.
Proof.
  intros r Hin Hrc. subst r.
  destruct (paths pd k) as [junk Hk | q junk rc' h1 Hk Hq HA Hrc'
    | q junk rcA h1 rcB h2 Hk Hq HA HrcA HB HrcB
    | q junk rcA h1 rcB h2 Hk Hq HA HrcA HB HrcB].
  - in_trace Hin; try discriminate; contradiction.
  - in_trace Hin; try discriminate; contradiction.
  - in_trace Hin; try discriminate; try contradiction.
    injection Heq as _ Heq. lia.
  - in_trace Hin; try discriminate; try contradiction.
    injection Heq as -> _.
    split; [reflexivity |]. apply lookup_insert_eq.
Qed.

(** X10.  With subsystems that change only the handle they are given, a
    probe, whatever its outcome, leaves every block other than the one it
    allocated as it was. *)
Theorem probe_keeps_other_blocks (pd : Z) (k : kernel) (q : Z) :
  init_local E ->
  exit_local E ->
  q <> (ext_kmalloc E (k_heap k)).1 ->
  k_heap (final (probe pd k)) !! q = k_heap k !! q.
Proof.
  intros [HlocA HlocB] [HlocXA _] Hq.
  destruct (paths pd k) as [junk Hk | p junk rc h1 Hk Hp HA Hrc
    | p junk rcA h1 rcB h2 Hk Hp HA HrcA HB HrcB
    | p junk rcA h1 rcB h2 Hk Hp HA HrcA HB HrcB];
    rewrite Hk in Hq; cbn [fst] in Hq;
    cbn [final fst snd k_heap set_heap].
  - reflexivity.
  - rewrite lookup_delete_ne by congruence.
    replace h1 with (rc, h1).2 by reflexivity.
    rewrite <- HA, HlocA by exact Hq. apply new_block_only, Hq.
  - rewrite lookup_delete_ne by congruence.
    rewrite HlocXA by exact Hq.
    replace h2 with (rcB, h2).2 by reflexivity.
    rewrite <- HB, HlocB, config_stores_elsewhere by exact Hq.
    replace h1 with (rcA, h1).2 by reflexivity.
    rewrite <- HA, HlocA by exact Hq. apply new_block_only, Hq.
  - replace h2 with (rcB, h2).2 by reflexivity.
    rewrite <- HB, HlocB, config_stores_elsewhere by exact Hq.
    replace h1 with (rcA, h1).2 by reflexivity.
    rewrite <- HA, HlocA by exact Hq. apply new_block_only, Hq.
Qed.

End Composition.

(** * The heap and composition properties at concrete collaborators *)

Lemma sample_init_local (p rcA rcB : Z) : init_local (sample_externs p rcA rcB).
Proof.
  split.
  - intros pd q q' h Hne. cbn. apply lookup_alter_ne. congruence.
  - intros q q' h Hne. cbn. apply lookup_alter_ne. congruence.
Qed.

Lemma sample_exit_local (p rcA rcB : Z) : exit_local (sample_externs p rcA rcB).
Proof.
  split; intros q q' h Hne; cbn; apply lookup_alter_ne; congruence.
Qed.

Lemma sample_init_keeps_pdev (p rcA rcB : Z) :
  init_keeps_pdev (sample_externs p rcA rcB).
Proof.
  split.
  - intros pd q h d Hd. cbn. exists (set_dma_state 1 d).
    rewrite lookup_alter_eq, Hd. split; reflexivity.
  - intros q h d Hd. cbn. exists (set_chrdev_state 1 d).
    rewrite lookup_alter_eq, Hd. split; reflexivity.
Qed.

Lemma probe_failure_frees_block_witness :
  result (sample_probe 4096 (-5) 0 empty_kernel) <> 0 /\
  In (EvKmalloc 4096) (trace (sample_probe 4096 (-5) 0 empty_kernel)) /\
  4096 <> NULL /\
  k_heap (final (sample_probe 4096 (-5) 0 empty_kernel)) !! 4096 = None.
Proof.
  assert (H1 : result (sample_probe 4096 (-5) 0 empty_kernel) <> 0)
    by (vm_compute; discriminate).
  assert (H2 : In (EvKmalloc 4096)
                 (trace (sample_probe 4096 (-5) 0 empty_kernel)))
    by (vm_compute; left; reflexivity).
  assert (H3 : 4096 <> NULL) by (vm_compute; discriminate).
  split; [exact H1 |]. split; [exact H2 |]. split; [exact H3 |].
  exact (probe_failure_frees_block (sample_externs 4096 (-5) 0)
           XILINX_DMA_BRIDGE_DRIVER_NAME 0 1 1000 empty_kernel 4096 H1 H2 H3).
Defined.

Lemma probe_failure_restores_kernel_witness :
  k_heap empty_kernel
    !! (ext_kmalloc (sample_externs 4096 0 (-16)) (k_heap empty_kernel)).1 = None /\
  result (sample_probe 4096 0 (-16) empty_kernel) <> 0 /\
  final (sample_probe 4096 0 (-16) empty_kernel) = empty_kernel.
Proof.
  assert (H1 : k_heap empty_kernel
                 !! (ext_kmalloc (sample_externs 4096 0 (-16))
                       (k_heap empty_kernel)).1 = None)
    by (vm_compute; reflexivity).
  assert (H2 : result (sample_probe 4096 0 (-16) empty_kernel) <> 0)
    by (vm_compute; discriminate).
  split; [exact H1 |]. split; [exact H2 |].
  exact (probe_failure_restores_kernel (sample_externs 4096 0 (-16))
           XILINX_DMA_BRIDGE_DRIVER_NAME 0 1 1000 empty_kernel
           (sample_init_local 4096 0 (-16)) (sample_exit_local 4096 0 (-16))
           H1 H2).
Defined.

Lemma probe_keeps_other_drvdata_witness :
  1000 <> 2000 /\
  k_drvdata two_devices_kernel !! 1000 = k_drvdata attached_kernel !! 1000.
Proof.
  assert (H : 1000 <> 2000) by lia.
  split; [exact H |].
  exact (probe_keeps_other_drvdata (sample_externs 8192 0 0)
           XILINX_DMA_BRIDGE_DRIVER_NAME 0 1 2000 1000 attached_kernel H).
Defined.

Lemma reprobe_leaves_old_handle_witness :
  k_drvdata attached_kernel !! 1000 = Some 4096 /\
  k_heap attached_kernel !! 4096 =
    Some (mk_axidma_device 1000 XILINX_DMA_BRIDGE_DRIVER_NAME 0 1 1 1) /\
  result (sample_probe 8192 0 0 attached_kernel) = 0 /\
  exists p,
    p <> 4096 /\
    k_drvdata (final (sample_probe 8192 0 0 attached_kernel)) !! 1000 = Some p /\
    k_heap (final (sample_probe 8192 0 0 attached_kernel)) !! 4096 =
      Some (mk_axidma_device 1000 XILINX_DMA_BRIDGE_DRIVER_NAME 0 1 1 1).
Proof.
  assert (H1 : k_drvdata attached_kernel !! 1000 = Some 4096)
    by (vm_compute; reflexivity).
  assert (H2 : k_heap attached_kernel !! 4096 =
               Some (mk_axidma_device 1000 XILINX_DMA_BRIDGE_DRIVER_NAME 0 1 1 1))
    by (vm_compute; reflexivity).
  assert (H3 : k_heap attached_kernel
                 !! (ext_kmalloc (sample_externs 8192 0 0)
                       (k_heap attached_kernel)).1 = None)
    by (vm_compute; reflexivity).
  assert (H4 : result (sample_probe 8192 0 0 attached_kernel) = 0)
    by (vm_compute; reflexivity).
  split; [exact H1 |]. split; [exact H2 |]. split; [exact H4 |].
  destruct (reprobe_leaves_old_handle (sample_externs 8192 0 0)
              XILINX_DMA_BRIDGE_DRIVER_NAME 0 1 1000 attached_kernel 4096 _
              (sample_init_local 8192 0 0) H1 H2 H3 H4)
    as (p & Hne & Hpd & Hold & _).
  exists p. split; [exact Hne |]. split; [exact Hpd | exact Hold].
Defined.

Lemma remove_keeps_other_blocks_witness :
  8192 <> default NULL (k_drvdata two_devices_kernel !! 1000) /\
  k_heap (final (sample_remove 4096 0 0 two_devices_kernel)) !! 8192 =
    k_heap two_devices_kernel !! 8192.
Proof.
  assert (H : 8192 <> default NULL (k_drvdata two_devices_kernel !! 1000))
    by (vm_compute; discriminate).
  split; [exact H |].
  exact (remove_keeps_other_blocks (sample_externs 4096 0 0) 1000
           two_devices_kernel 8192 (sample_exit_local 4096 0 0) H).
Defined.

Lemma probe_publishes_pdev_witness :
  result (sample_probe 4096 0 0 empty_kernel) = 0 /\
  exists p d,
    k_drvdata (final (sample_probe 4096 0 0 empty_kernel)) !! 1000 = Some p /\
    k_heap (final (sample_probe 4096 0 0 empty_kernel)) !! p = Some d /\
    pdev d = 1000.
Proof.
  assert (H : result (sample_probe 4096 0 0 empty_kernel) = 0)
    by (vm_compute; reflexivity).
  split; [exact H |].
  exact (probe_publishes_pdev (sample_externs 4096 0 0)
           XILINX_DMA_BRIDGE_DRIVER_NAME 0 1 1000 empty_kernel
           (sample_init_keeps_pdev 4096 0 0) H).
Defined.

Lemma probe_remove_restores_heap_witness :
  result (sample_probe 4096 0 0 empty_kernel) = 0 /\
  k_heap (final (sample_remove 4096 0 0
                   (final (sample_probe 4096 0 0 empty_kernel)))) =
    k_heap empty_kernel.
Proof.
  assert (H1 : k_heap empty_kernel
                 !! (ext_kmalloc (sample_externs 4096 0 0)
                       (k_heap empty_kernel)).1 = None)
    by (vm_compute; reflexivity).
  assert (H2 : result (sample_probe 4096 0 0 empty_kernel) = 0)
    by (vm_compute; reflexivity).
  split; [exact H2 |].
  exact (proj1 (probe_remove_restores_heap (sample_externs 4096 0 0)
                  XILINX_DMA_BRIDGE_DRIVER_NAME 0 1 1000 empty_kernel
                  (sample_init_local 4096 0 0) (sample_exit_local 4096 0 0)
                  H1 H2)).
Defined.

Lemma probe_nonnegative_status_is_success_witness :
  In (EvChrdevInit 4096 7) (trace (sample_probe 4096 0 7 empty_kernel)) /\
  0 <= 7 /\
  result (sample_probe 4096 0 7 empty_kernel) = 0.
Proof.
  assert (H1 : In (EvChrdevInit 4096 7)
                 (trace (sample_probe 4096 0 7 empty_kernel)))
    by (vm_compute; do 6 right; left; reflexivity).
  assert (H2 : 0 <= 7) by lia.
  split; [exact H1 |]. split; [exact H2 |].
  exact (proj1 (probe_nonnegative_status_is_success (sample_externs 4096 0 7)
                  XILINX_DMA_BRIDGE_DRIVER_NAME 0 1 1000 empty_kernel
                  4096 7 H1 H2)).
Defined.

Lemma probe_keeps_other_blocks_witness :
  4096 <> (ext_kmalloc (sample_externs 8192 0 (-16)) (k_heap attached_kernel)).1 /\
  k_heap (final (sample_probe 8192 0 (-16) attached_kernel)) !! 4096 =
    k_heap attached_kernel !! 4096.
Proof.
  assert (H : 4096 <> (ext_kmalloc (sample_externs 8192 0 (-16))
                         (k_heap attached_kernel)).1)
    by (vm_compute; discriminate).
  split; [exact H |].
  exact (probe_keeps_other_blocks (sample_externs 8192 0 (-16))
           XILINX_DMA_BRIDGE_DRIVER_NAME 0 1 1000 attached_kernel 4096
           (sample_init_local 8192 0 (-16)) (sample_exit_local 8192 0 (-16)) H).
Defined.
